(** * RQClient: the job-queue client of the template, and its contract

    A shallow embedding of
    [src/{{project_slug}}/infrastructure/rq_client/rq_client.py].

    The client is a thin layer over two libraries, [redis] and [rq].  Their
    code is not part of the repository, so they enter the development as an
    interface ([Backend]) over an arbitrary world state; every theorem about
    the client holds for every implementation of that interface.  Python's
    exceptions, the attribute dictionary of the client object and the process
    environment are threaded explicitly through a small state-and-exception
    monad. *)

From Stdlib Require Import ZArith String List Bool Lia.
From stdpp Require Import gmap strings pretty.

Open Scope Z_scope.

(** ** Python values and exceptions *)

(** The values that travel through the client untouched: positional and
    keyword arguments of a job, job metadata, job results ([Any]). *)
#[warnings="-register-all"]
Inductive PyValue :=
| PyNone
| PyBool (b : bool)
| PyInt (n : Z)
| PyStr (s : string)
| PyList (items : list PyValue)
| PyDictV (items : list (string * PyValue)).

(** [dict[str, Any]], in insertion order. *)
Definition PyDict : Type := list (string * PyValue).

(** An exception instance: the name of its class, whether the class derives
    from [Exception] (as opposed to [BaseException] only: [KeyboardInterrupt],
    [SystemExit], [GeneratorExit]), what [str(error)] gives, and [__cause__]. *)
#[warnings="-register-all"]
Inductive PyExc :=
| Exc (exc_type : string) (derives_Exception : bool) (message : string)
      (cause : option PyExc).

Definition exc_type (e : PyExc) : string :=
  match e with Exc t _ _ _ => t end.

(** [isinstance(error, Exception)]: what [except Exception] tests. *)
Definition is_Exception (e : PyExc) : bool :=
  match e with Exc _ b _ _ => b end.

(** [str(error)], which is also what [f"{error}"] formats. *)
Definition str (e : PyExc) : string :=
  match e with Exc _ _ m _ => m end.

Definition exc_cause (e : PyExc) : option PyExc :=
  match e with Exc _ _ _ c => c end.

(** [RuntimeError(msg)] raised [from error]. *)
Definition RuntimeError (msg : string) (error : PyExc) : PyExc :=
  Exc "RuntimeError" true msg (Some error).

(** Reading an attribute that was never assigned. *)
Definition AttributeError (attr : string) : PyExc :=
  Exc "AttributeError" true
      ("'RQClient' object has no attribute '" +:+ attr +:+ "'") None.

(** How a Python call ends: it returns a value or raises. *)
Inductive outcome (A : Type) :=
| Returned (a : A)
| Raised (e : PyExc).
Arguments Returned {A} a.
Arguments Raised {A} e.

Definition raised_of {A} (o : outcome A) : option PyExc :=
  match o with
  | Returned _ => None
  | Raised e => Some e
  end.

(** ** [result.Result] *)

Inductive Result (T E : Type) :=
| Ok (value : T)
| Err (error : E).
Arguments Ok {T E} value.
Arguments Err {T E} error.

(** ** Constants of the source *)

Definition REDIS_URL : string := "REDIS_URL".
Definition default_redis_url : string := "redis://localhost:6379/0".
Definition default_job_timeout : Z := 3600.

Section Client.

(** The backend's world (the Redis server, its jobs, the workers acting on
    them, the network in between) and the handles the libraries hand out. *)
Context {W Conn QueueT JobT : Type}.

(** ** The library interface the client is written against

    Every call that reaches the backend takes the world and gives back an
    outcome and the world after the call; what the workers did in the
    meantime is part of that transition.  [job.id] and [job.meta] are plain
    attribute reads on the fetched object. *)
Record Backend := {
  redis_from_url : string -> W -> outcome Conn * W;
  Queue_new : Conn -> W -> outcome QueueT * W;
  Queue_enqueue :
    QueueT -> string -> list PyValue -> Z -> PyDict -> W -> outcome JobT * W;
  Job_fetch : string -> Conn -> W -> outcome JobT * W;
  Job_id : JobT -> string;
  Job_meta : JobT -> PyDict;
  Job_get_status : JobT -> W -> outcome string * W;
  Job_is_finished : JobT -> W -> outcome bool * W;
  Job_result : JobT -> W -> outcome PyValue * W;
  Job_cancel : JobT -> W -> outcome unit * W
}.

(** The calls the source makes on the libraries, with their arguments. *)
Inductive Call :=
| call_from_url (url : string)
| call_Queue (connection : Conn)
| call_enqueue (queue : QueueT) (function_path : string)
               (args : list PyValue) (job_timeout : Z) (kwargs : PyDict)
| call_fetch (job_id : string) (connection : Conn)
| call_get_status (job : JobT)
| call_is_finished (job : JobT)
| call_result (job : JobT)
| call_cancel (job : JobT).

(** One round trip: the call and the exception it raised, if any. *)
Record Event := {
  ev_call : Call;
  ev_raised : option PyExc
}.

(** The calls that open a connection or bind a queue. *)
Definition opens_connection (c : Call) : bool :=
  match c with
  | call_from_url _ | call_Queue _ => true
  | _ => false
  end.

(** ** The client object and the program state *)

(** The attributes of an [RQClient] instance; [None] is an attribute that
    has not been assigned (the object as [__new__] leaves it). *)
Record RQClient := {
  _redis_connection : option Conn;
  _queue : option QueueT
}.

Definition blank : RQClient :=
  {| _redis_connection := None; _queue := None |}.

Record State := {
  environ : gmap string string;   (* os.environ *)
  self : RQClient;                (* the object the methods are called on *)
  world : W;                      (* the backend *)
  calls : list Event              (* the round trips made so far *)
}.

(** ** The monad of the embedding: state and exceptions *)

Definition M (A : Type) : Type := State -> outcome A * State.

Definition ret {A} (a : A) : M A := fun s => (Returned a, s).

Definition raise {A} (e : PyExc) : M A := fun s => (Raised e, s).

Definition bind {A B} (m : M A) (k : A -> M B) : M B := fun s =>
  match m s with
  | (Returned a, s') => k a s'
  | (Raised e, s') => (Raised e, s')
  end.

(** [try: body  except Exception as error: handler]: an exception that
    does not derive from [Exception] passes through. *)
Definition try_except {A} (body : M A) (handler : PyExc -> M A) : M A :=
  fun s =>
    match body s with
    | (Returned a, s') => (Returned a, s')
    | (Raised error, s') =>
        if is_Exception error then handler error s' else (Raised error, s')
    end.

(** A call on the library: the world moves, the round trip is logged. *)
Definition backend_call {A} (c : Call) (f : W -> outcome A * W) : M A :=
  fun s =>
    let '(r, w) := f (world s) in
    (r, {| environ := environ s;
           self := self s;
           world := w;
           calls := calls s ++ [{| ev_call := c; ev_raised := raised_of r |}] |}).

(** [os.getenv(key, default)] *)
Definition getenv (key default_value : string) : M string := fun s =>
  (Returned (default default_value (environ s !! key)), s).

(** [self._redis_connection] and [self._queue], read and assigned. *)
Definition get_redis_connection : M Conn := fun s =>
  match _redis_connection (self s) with
  | Some c => (Returned c, s)
  | None => (Raised (AttributeError "_redis_connection"), s)
  end.

Definition get_queue : M QueueT := fun s =>
  match _queue (self s) with
  | Some q => (Returned q, s)
  | None => (Raised (AttributeError "_queue"), s)
  end.

Definition set_redis_connection (c : Conn) : M unit := fun s =>
  (Returned tt,
   {| environ := environ s;
      self := {| _redis_connection := Some c; _queue := _queue (self s) |};
      world := world s;
      calls := calls s |}).

Definition set_queue (q : QueueT) : M unit := fun s =>
  (Returned tt,
   {| environ := environ s;
      self := {| _redis_connection := _redis_connection (self s);
                 _queue := Some q |};
      world := world s;
      calls := calls s |}).

End Client.

Arguments Backend : clear implicits.
Arguments Call : clear implicits.
Arguments Event : clear implicits.
Arguments RQClient : clear implicits.
Arguments State : clear implicits.

Notation "'let*' x ':=' m 'in' k" := (bind m (fun x => k))
  (at level 10, x name, m at level 100, k at level 200).

(** ** The client, method by method *)

Section Methods.

Context {W Conn QueueT JobT : Type}.
Variable B : Backend W Conn QueueT JobT.

Local Abbreviation M := (@M W Conn QueueT JobT).

(** [RQClient.__init__(self, redis_url=None)] *)
Definition __init__ (redis_url : option string) : M unit :=
  let* redis_url :=
    match redis_url with
    | None => getenv REDIS_URL default_redis_url
    | Some url => ret url
    end in
  try_except
    (let* connection :=
       backend_call (call_from_url redis_url) (redis_from_url B redis_url) in
     let* _ := set_redis_connection connection in
     let* connection := get_redis_connection in
     let* queue := backend_call (call_Queue connection) (Queue_new B connection) in
     set_queue queue)
    (fun error =>
       raise (RuntimeError ("Failed to connect to Redis: " +:+ str error) error)).

(** The expression [RQClient(redis_url)]: a fresh object is initialised and,
    unless [__init__] raises, handed to the caller. *)
Definition construct (redis_url : option string) : M (RQClient Conn QueueT) :=
  fun s =>
    match __init__ redis_url
            {| environ := environ s; self := blank;
               world := world s; calls := calls s |} with
    | (Returned _, s') => (Returned (self s'), s')
    | (Raised e, s') => (Raised e, s')
    end.

(** [enqueue_job(self, function_path, *args, job_timeout=3600, **kwargs)];
    [job_timeout] is [None] when the caller leaves the keyword out. *)
Definition enqueue_job (function_path : string) (args : list PyValue)
    (job_timeout : option Z) (kwargs : PyDict) : M (Result string string) :=
  let job_timeout := default default_job_timeout job_timeout in
  try_except
    (let* queue := get_queue in
     let* job :=
       backend_call (call_enqueue queue function_path args job_timeout kwargs)
         (Queue_enqueue B queue function_path args job_timeout kwargs) in
     ret (Ok (Job_id B job)))
    (fun error => ret (Err ("Failed to enqueue job: " +:+ str error))).

(** [get_job_status(self, job_id)] *)
Definition get_job_status (job_id : string) : M (Result string string) :=
  try_except
    (let* connection := get_redis_connection in
     let* job :=
       backend_call (call_fetch job_id connection) (Job_fetch B job_id connection) in
     let* status := backend_call (call_get_status job) (Job_get_status B job) in
     ret (Ok status))
    (fun error => ret (Err ("Failed to get job status: " +:+ str error))).

(** [get_job_meta(self, job_id)] *)
Definition get_job_meta (job_id : string) : M (Result PyDict string) :=
  try_except
    (let* connection := get_redis_connection in
     let* job :=
       backend_call (call_fetch job_id connection) (Job_fetch B job_id connection) in
     ret (Ok (Job_meta B job)))
    (fun error => ret (Err ("Failed to get job metadata: " +:+ str error))).

(** [cancel_job(self, job_id)] *)
Definition cancel_job (job_id : string) : M (Result unit string) :=
  try_except
    (let* connection := get_redis_connection in
     let* job :=
       backend_call (call_fetch job_id connection) (Job_fetch B job_id connection) in
     let* _ := backend_call (call_cancel job) (Job_cancel B job) in
     ret (Ok tt))
    (fun error => ret (Err ("Failed to cancel job: " +:+ str error))).

(** [get_job_result(self, job_id)] *)
Definition get_job_result (job_id : string) : M (Result PyValue string) :=
  try_except
    (let* connection := get_redis_connection in
     let* job :=
       backend_call (call_fetch job_id connection) (Job_fetch B job_id connection) in
     let* finished := backend_call (call_is_finished job) (Job_is_finished B job) in
     if finished then
       let* result := backend_call (call_result job) (Job_result B job) in
       ret (Ok result)
     else
       let* status := backend_call (call_get_status job) (Job_get_status B job) in
       ret (Err ("Job is not finished yet (status: " +:+ status +:+ ")")))
    (fun error => ret (Err ("Failed to get job result: " +:+ str error))).

End Methods.

(** ** The caller's view *)

Section Caller.

Context {W Conn QueueT JobT : Type}.
Variable B : Backend W Conn QueueT JobT.

(** The five job-facing operations with their arguments. *)
Inductive Operation :=
| op_enqueue_job (function_path : string) (args : list PyValue)
                 (job_timeout : option Z) (kwargs : PyDict)
| op_get_job_status (job_id : string)
| op_get_job_meta (job_id : string)
| op_cancel_job (job_id : string)
| op_get_job_result (job_id : string).

Definition map_ok {T U : Type} (f : T -> U) (m : @M W Conn QueueT JobT (Result T string))
  : @M W Conn QueueT JobT (Result U string) :=
  let* r := m in
  ret (match r with Ok v => Ok (f v) | Err e => Err e end).

(** Calling an operation; the payload of [Ok] is seen as the Python value
    it is ([str], [dict], [None], [Any]). *)
Definition invoke (op : Operation) : @M W Conn QueueT JobT (Result PyValue string) :=
  match op with
  | op_enqueue_job function_path args job_timeout kwargs =>
      map_ok PyStr (enqueue_job B function_path args job_timeout kwargs)
  | op_get_job_status job_id => map_ok PyStr (get_job_status B job_id)
  | op_get_job_meta job_id => map_ok PyDictV (get_job_meta B job_id)
  | op_cancel_job job_id => map_ok (fun _ => PyNone) (cancel_job B job_id)
  | op_get_job_result job_id => get_job_result B job_id
  end.

(** The text each [except Exception] handler puts before [str(error)]. *)
Definition failure_prefix (op : Operation) : string :=
  match op with
  | op_enqueue_job _ _ _ _ => "Failed to enqueue job: "
  | op_get_job_status _ => "Failed to get job status: "
  | op_get_job_meta _ => "Failed to get job metadata: "
  | op_cancel_job _ => "Failed to cancel job: "
  | op_get_job_result _ => "Failed to get job result: "
  end.

(** How [get_job_result] starts the message of an unfinished job. *)
Definition not_finished_prefix : string := "Job is not finished yet".

(** The round trips made between two states of one run. *)
Definition events_since (s s' : State W Conn QueueT JobT)
  : list (Event Conn QueueT JobT) :=
  drop (length (calls s)) (calls s').

End Caller.

(** ** The traffic of an operation *)

Section Traffic.

Context {Conn QueueT JobT : Type}.

(** The library calls in the body of each operation, counted along its
    longest path. *)
Definition max_round_trips (op : Operation) : nat :=
  match op with
  | op_enqueue_job _ _ _ _ => 1%nat
  | op_get_job_status _ => 2%nat
  | op_get_job_meta _ => 1%nat
  | op_cancel_job _ => 2%nat
  | op_get_job_result _ => 3%nat
  end.

(** The library call each body starts with, on a client that holds
    connection [c] and queue [q]. *)
Definition first_call (c : Conn) (q : QueueT) (op : Operation)
  : Call Conn QueueT JobT :=
  match op with
  | op_enqueue_job function_path args job_timeout kwargs =>
      call_enqueue q function_path args
        (default default_job_timeout job_timeout) kwargs
  | op_get_job_status job_id
  | op_get_job_meta job_id
  | op_cancel_job job_id
  | op_get_job_result job_id => call_fetch job_id c
  end.

(** The state [s] with another process environment. *)
Definition with_environ {W : Type} (env : gmap string string)
    (s : State W Conn QueueT JobT) : State W Conn QueueT JobT :=
  {| environ := env; self := self s; world := world s; calls := calls s |}.

End Traffic.

(** ** How the body of an operation ended *)

Section Origin.

Context {W Conn QueueT JobT : Type}.
Variable B : Backend W Conn QueueT JobT.

(** The attribute an operation reads first, when the object lacks it. *)
Definition missing_attribute (op : Operation) (s : State W Conn QueueT JobT)
  : option string :=
  match op with
  | op_enqueue_job _ _ _ _ =>
      match _queue (self s) with
      | None => Some "_queue"
      | Some _ => None
      end
  | _ =>
      match _redis_connection (self s) with
      | None => Some "_redis_connection"
      | Some _ => None
      end
  end.

(** The exception that cut the body of an operation short, read off the run
    and not off its outcome: the [AttributeError] of a missing attribute, or
    what the last library call of the run raised.  [None] when every
    statement of the body ran. *)
Definition failure_of_run (op : Operation) (s : State W Conn QueueT JobT)
  : option PyExc :=
  match missing_attribute op s with
  | Some attr => Some (AttributeError attr)
  | None =>
      match last (events_since s (snd (invoke B op s))) with
      | Some ev => ev_raised ev
      | None => None
      end
  end.

End Origin.

(** ** The status vocabulary and the address fallback, as the specification words them *)

(** The five state names of the specification. *)
Definition status_vocabulary : list string :=
  ["queued"; "started"; "finished"; "failed"; "canceled"].

Definition in_vocabulary (status : string) : bool :=
  existsb (String.eqb status) status_vocabulary.

(** The fallback chain of the specification: the explicit argument, else the
    value of the environment variable, else the fixed local default. *)
Definition effective_address (argument env_value : option string) : string :=
  match argument, env_value with
  | Some url, _ => url
  | None, Some url => url
  | None, None => "redis://localhost:6379/0"
  end.

(** ** A reference backend

    An in-memory stand-in for the Redis server and the [rq] library, after the
    data model of the specification: jobs keyed by their ID, each with a
    status, a metadata mapping and, once a worker stored one, a result.  It is
    one implementation of [Backend] among all those the theorems cover, and
    the one they are run on. *)
Module InMemory.

Record JobData := {
  status : string;
  meta : PyDict;
  result : option PyValue          (* the stored return value, if any *)
}.

Record Server := {
  address : string;                (* where the server listens *)
  up : bool;                       (* whether it can be reached *)
  jobs : gmap string JobData;
  next_id : nat                    (* source of generated job IDs *)
}.

(** A connection and a queue remember the address they were opened on; a
    fetched job carries its ID and the metadata read at fetch time. *)
Definition Conn : Type := string.
Definition QueueT : Type := string.
Record JobT := { id : string; fetched_meta : PyDict }.

Definition ConnectionError : PyExc :=
  Exc "ConnectionError" true
      "Error 111 connecting to localhost:6379. Connection refused." None.

Definition NoSuchJobError (job_id : string) : PyExc :=
  Exc "NoSuchJobError" true ("No such job: " +:+ job_id) None.

Definition InvalidJobOperation (job_id : string) : PyExc :=
  Exc "InvalidJobOperation" true
      ("Cannot cancel already canceled job: " +:+ job_id) None.

(** [kwargs.get(key)] *)
Fixpoint kwargs_get (key : string) (kwargs : PyDict) : option PyValue :=
  match kwargs with
  | [] => None
  | (k, v) :: rest => if String.eqb k key then Some v else kwargs_get key rest
  end.

Definition with_jobs (w : Server) (js : gmap string JobData) (n : nat) : Server :=
  {| address := address w; up := up w; jobs := js; next_id := n |}.

Definition ValueError (message : string) : PyExc :=
  Exc "ValueError" true message None.

Definition TypeError (message : string) : PyExc :=
  Exc "TypeError" true message None.

(** [redis.from_url] parses the address and returns a client; it opens no
    socket.  The one thing it refuses is an address without a scheme it
    knows. *)
Definition known_scheme (url : string) : bool :=
  String.prefix "redis://" url
  || String.prefix "rediss://" url
  || String.prefix "unix://" url.

Definition from_url (url : string) (w : Server) : outcome Conn * Server :=
  if known_scheme url
  then (Returned url, w)
  else (Raised (ValueError
                  "Redis URL must specify one of the following schemes (redis://, rediss://, unix://)"),
        w).

(** [Queue(connection=...)] keeps the connection and opens no socket
    either. *)
Definition new_queue (c : Conn) (w : Server) : outcome QueueT * Server :=
  (Returned c, w).

(** Whether a command sent over connection [c] gets to the server: only a
    command finds out that nothing listens at the address. *)
Definition reaches (c : Conn) (w : Server) : bool :=
  up w && String.eqb c (address w).

Definition InvalidJobDependency : PyExc :=
  Exc "InvalidJobDependency" true
      "Dependent jobs need to be saved to Redis before they can be used" None.

(** How a new job starts: [queued], or [deferred] while the job named by the
    keyword [depends_on] has not finished. *)
Definition initial_status (kwargs : PyDict) (w : Server) : outcome string :=
  match kwargs_get "depends_on" kwargs with
  | Some (PyStr dependency) =>
      match jobs w !! dependency with
      | Some d =>
          Returned (if String.eqb (status d) "finished" then "queued" else "deferred")
      | None => Raised InvalidJobDependency
      end
  | _ => Returned "queued"
  end.

(** The ID of a new job: the one the caller names with the keyword
    [job_id], which [rq] refuses when it is empty or not a string, or else
    one the backend generates. *)
Definition new_job_id (kwargs : PyDict) (w : Server) : outcome string :=
  match kwargs_get "job_id" kwargs with
  | None | Some PyNone => Returned ("job-" +:+ pretty (next_id w))
  | Some (PyStr given) =>
      if String.eqb given EmptyString
      then Raised (ValueError "id must be a non-empty string")
      else Returned given
  | Some _ => Raised (TypeError "id must be a string")
  end.

(** The metadata a new job starts with: the keyword [meta], if given. *)
Definition initial_meta (kwargs : PyDict) : PyDict :=
  match kwargs_get "meta" kwargs with
  | Some (PyDictV given) => given
  | _ => []
  end.

(** Modelled from the spec: [Queue.enqueue] of [rq], which is not part of
    the repository.  The backend creates the job in state [queued] and
    generates its ID at submission (specification, sections 3 and 4.1).  As
    in [rq], the submission is checked before anything is sent: a timeout of
    zero and an unusable [job_id] are refused; then the job is stored, which
    needs the server. *)
Definition enqueue (q : QueueT) (function_path : string) (args : list PyValue)
    (job_timeout : Z) (kwargs : PyDict) (w : Server) : outcome JobT * Server :=
  if job_timeout =? 0 then
    (Raised (ValueError "0 timeout is not allowed. Use -1 for infinite timeout"), w)
  else
    match new_job_id kwargs w with
    | Raised e => (Raised e, w)
    | Returned job_id =>
        if reaches q w then
          match initial_status kwargs w with
          | Returned initial =>
              (Returned {| id := job_id; fetched_meta := initial_meta kwargs |},
               with_jobs w
                 (<[job_id := {| status := initial; meta := initial_meta kwargs;
                                 result := None |}]> (jobs w))
                 (S (next_id w)))
          | Raised e => (Raised e, w)
          end
        else (Raised ConnectionError, w)
    end.

Definition fetch (job_id : string) (c : Conn) (w : Server) : outcome JobT * Server :=
  if reaches c w then
    match jobs w !! job_id with
    | Some d => (Returned {| id := job_id; fetched_meta := meta d |}, w)
    | None => (Raised (NoSuchJobError job_id), w)
    end
  else (Raised ConnectionError, w).

(** Reading a field of the job's stored record. *)
Definition read {A} (f : JobData -> A) (j : JobT) (w : Server) : outcome A * Server :=
  if up w then
    match jobs w !! id j with
    | Some d => (Returned (f d), w)
    | None => (Raised (NoSuchJobError (id j)), w)
    end
  else (Raised ConnectionError, w).

Definition get_status : JobT -> Server -> outcome string * Server :=
  read status.

Definition is_finished : JobT -> Server -> outcome bool * Server :=
  read (fun d => String.eqb (status d) "finished").

(** A job without a stored result reads as [None]. *)
Definition get_result : JobT -> Server -> outcome PyValue * Server :=
  read (fun d => default PyNone (result d)).

Definition cancel (j : JobT) (w : Server) : outcome unit * Server :=
  if up w then
    match jobs w !! id j with
    | Some d =>
        if String.eqb (status d) "canceled"
        then (Raised (InvalidJobOperation (id j)), w)
        else (Returned tt,
              with_jobs w
                (<[id j := {| status := "canceled"; meta := meta d;
                              result := result d |}]> (jobs w))
                (next_id w))
    | None => (Raised (NoSuchJobError (id j)), w)
    end
  else (Raised ConnectionError, w).

Definition backend : Backend Server Conn QueueT JobT := {|
  redis_from_url := from_url;
  Queue_new := new_queue;
  Queue_enqueue := enqueue;
  Job_fetch := fetch;
  Job_id := id;
  Job_meta := fetched_meta;
  Job_get_status := get_status;
  Job_is_finished := is_finished;
  Job_result := get_result;
  Job_cancel := cancel
|}.

(** A server on the default address holding one job per state. *)
Definition sample_jobs : gmap string JobData :=
  list_to_map
    [("q1", {| status := "queued"; meta := []; result := None |});
     ("s1", {| status := "started"; meta := [("progress", PyInt 40)];
               result := None |});
     ("f1", {| status := "finished"; meta := []; result := Some (PyInt 42) |});
     ("f2", {| status := "finished"; meta := []; result := Some PyNone |});
     ("f3", {| status := "finished"; meta := []; result := None |});
     ("x1", {| status := "failed"; meta := []; result := None |});
     ("c1", {| status := "canceled"; meta := []; result := None |});
     ("d1", {| status := "deferred"; meta := []; result := None |})].

Definition server : Server :=
  {| address := default_redis_url; up := true; jobs := sample_jobs; next_id := 0 |}.

(** The same server, out of reach. *)
Definition server_down : Server :=
  {| address := default_redis_url; up := false; jobs := sample_jobs; next_id := 0 |}.

Definition client : RQClient Conn QueueT :=
  {| _redis_connection := Some default_redis_url;
     _queue := Some default_redis_url |}.

(** A program state: a constructed client in front of server [w]. *)
Definition state_on (w : Server) : State Server Conn QueueT JobT :=
  {| environ := ∅; self := client; world := w; calls := [] |}.

(** A program state before construction, with the given environment. *)
Definition fresh_on (env : gmap string string) (w : Server)
  : State Server Conn QueueT JobT :=
  {| environ := env; self := blank; world := w; calls := [] |}.

(** A backend on which every fetch is cut short by an interrupt, which does
    not derive from [Exception]. *)
Definition KeyboardInterrupt : PyExc :=
  Exc "KeyboardInterrupt" false EmptyString None.

Definition interrupted : Backend Server Conn QueueT JobT := {|
  redis_from_url := from_url;
  Queue_new := new_queue;
  Queue_enqueue := enqueue;
  Job_fetch := fun _ _ w => (Raised KeyboardInterrupt, w);
  Job_id := id;
  Job_meta := fetched_meta;
  Job_get_status := get_status;
  Job_is_finished := is_finished;
  Job_result := get_result;
  Job_cancel := cancel
|}.

End InMemory.

(** ** Proof automation *)

(** Unfolding a method down to the library calls it makes, then following
    every way those calls can end. *)
Ltac unfold_client :=
  unfold invoke, map_ok, construct, __init__, enqueue_job, get_job_status,
    get_job_meta, cancel_job, get_job_result, try_except, bind, ret, raise,
    backend_call, getenv, get_redis_connection, get_queue,
    set_redis_connection, set_queue, effective_address,
    REDIS_URL, default_redis_url, default_job_timeout in *.

Ltac case_call c :=
  let r := fresh "r" in destruct c as [r ?] eqn:?; destruct r.

Ltac follow_run :=
  repeat (simpl in *;
    match goal with
    | |- context [match _redis_connection ?x with _ => _ end] =>
        destruct (_redis_connection x) eqn:?
    | |- context [match _queue ?x with _ => _ end] =>
        destruct (_queue x) eqn:?
    | |- context [redis_from_url ?b ?u ?w] => case_call (redis_from_url b u w)
    | |- context [Queue_new ?b ?c ?w] => case_call (Queue_new b c w)
    | |- context [Queue_enqueue ?b ?q ?f ?a ?t ?k ?w] =>
        case_call (Queue_enqueue b q f a t k w)
    | |- context [Job_fetch ?b ?i ?c ?w] => case_call (Job_fetch b i c w)
    | |- context [Job_get_status ?b ?j ?w] => case_call (Job_get_status b j w)
    | |- context [Job_is_finished ?b ?j ?w] => case_call (Job_is_finished b j w)
    | |- context [Job_result ?b ?j ?w] => case_call (Job_result b j w)
    | |- context [Job_cancel ?b ?j ?w] => case_call (Job_cancel b j w)
    | |- context [if is_Exception ?e then _ else _] =>
        destruct (is_Exception e) eqn:?
    | |- context [if ?b then _ else _] => is_var b; destruct b
    end).

Ltac tidy_events :=
  unfold events_since in *; simpl in *;
  repeat rewrite <- app_assoc in *;
  rewrite ?drop_app_length, ?drop_all in *; simpl in *.

(** * Theorems *)

(** ** Strings and event logs *)

Lemma prefix_append (p x : string) : String.prefix p (p +:+ x) = true.
Proof.
  induction p as [|a p IH]; simpl.
  - now destruct x.
  - destruct (Ascii.ascii_dec a a) as [_|ne]; [exact IH | now destruct ne].
Qed.

Section Contract.

Context {W Conn QueueT JobT : Type}.
Variable B : Backend W Conn QueueT JobT.

Local Abbreviation State := (State W Conn QueueT JobT).
Local Abbreviation Event := (Event Conn QueueT JobT).

(** What can leave an operation as an exception does not derive from
    [Exception]: each body is one [try] with an [except Exception]. *)
Lemma only_BaseException_escapes (op : Operation) (s : State) (e : PyExc) :
  fst (invoke B op s) = Raised e -> is_Exception e = false.
Proof.
  destruct op; unfold_client; follow_run; intros H;
    try discriminate; inversion H; subst; assumption.
Qed.

(** C1. Whatever operation is called, when a call it makes on the backend
    fails with an exception deriving from [Exception] (an unknown or
    malformed job ID, a connection error, an error raised by the backend),
    the operation returns [Err] of its own prefix followed by the text of
    that exception, and no exception reaches the caller. *)
Theorem backend_failures_become_Err
    (op : Operation) (s : State) (ev : Event) (e : PyExc) :
  In ev (events_since s (snd (invoke B op s))) ->
  ev_raised ev = Some e ->
  is_Exception e = true ->
  fst (invoke B op s) = Returned (Err (failure_prefix op +:+ str e))
  /\ forall escaped, fst (invoke B op s) <> Raised escaped.
Proof.
  intros Hin Hraised Hexc.
  assert (fst (invoke B op s) = Returned (Err (failure_prefix op +:+ str e)))
    as Hout; [| split; [exact Hout | rewrite Hout; discriminate]].
  revert Hin.
  destruct op; unfold_client; follow_run; tidy_events; intros Hin;
    repeat match goal with
    | H : _ \/ _ |- _ => destruct H
    | H : False |- _ => destruct H
    end; subst; simpl in *; try discriminate;
    try (inversion Hraised; subst; try reflexivity; congruence).
Qed.

(** C2. When the fetch of the job succeeds and [job.is_finished] reads
    false, [get_job_result] never returns [Ok]; and once the status is read
    for the message, the outcome is [Err] of the text
    "Job is not finished yet (status: <status>)" with that status in it. *)
Theorem unfinished_job_gives_Err
    (job_id : string) (s : State) (c : Conn) (job : JobT) (w1 w2 : W) :
  _redis_connection (self s) = Some c ->
  Job_fetch B job_id c (world s) = (Returned job, w1) ->
  Job_is_finished B job w1 = (Returned false, w2) ->
  (forall value, fst (get_job_result B job_id s) <> Returned (Ok value))
  /\ (forall status w3,
        Job_get_status B job w2 = (Returned status, w3) ->
        fst (get_job_result B job_id s) =
          Returned (Err ("Job is not finished yet (status: " +:+ status +:+ ")"))).
Proof.
  intros Hconn Hfetch Hfin. unfold_client.
  rewrite Hconn; simpl. rewrite Hfetch; simpl. rewrite Hfin; simpl.
  split.
  - intros value. follow_run; discriminate.
  - intros status w3 Hstatus. rewrite Hstatus. reflexivity.
Qed.

(** C3. The address construction connects to is the one the fallback chain
    of the specification gives for the argument and the value of
    [REDIS_URL] in the environment: opening that address is the first call
    construction makes, whatever the argument and the environment are. *)
Theorem construction_resolves_address (redis_url : option string) (s : State) :
  head (events_since s (snd (construct B redis_url s))) =
    Some {| ev_call :=
              call_from_url
                (effective_address redis_url (environ s !! REDIS_URL));
            ev_raised :=
              raised_of
                (fst (redis_from_url B
                        (effective_address redis_url (environ s !! REDIS_URL))
                        (world s))) |}.
Proof.
  unfold effective_address.
  destruct redis_url as [url|]; [| destruct (environ s !! REDIS_URL) eqn:Henv];
    unfold_client; simpl; rewrite ?Henv; simpl;
    follow_run; tidy_events; reflexivity.
Qed.

(** What construction does with a library call that fails: it raises, a
    [RuntimeError] "Failed to connect to Redis: ..." caused by the failure
    when that derives from [Exception], the failure itself otherwise.  A
    client is handed to the caller only with its connection and its queue
    both assigned and every call having returned.  The five operations, for
    their part, raise nothing that derives from [Exception]. *)
Lemma construction_fails_by_raising (redis_url : option string) (s : State) :
  (forall ev e,
      In ev (events_since s (snd (construct B redis_url s))) ->
      ev_raised ev = Some e ->
      fst (construct B redis_url s) =
        Raised (if is_Exception e
                then RuntimeError ("Failed to connect to Redis: " +:+ str e) e
                else e))
  /\ (forall client,
        fst (construct B redis_url s) = Returned client ->
        (exists c q,
            client = {| _redis_connection := Some c; _queue := Some q |}
            /\ map ev_call (events_since s (snd (construct B redis_url s))) =
                 [call_from_url
                    (effective_address redis_url (environ s !! REDIS_URL));
                  call_Queue c])
        /\ Forall (fun ev => ev_raised ev = None)
             (events_since s (snd (construct B redis_url s))))
  /\ (forall op s' e,
        fst (invoke B op s') = Raised e -> is_Exception e = false).
Proof.
  split; [| split].
  - intros ev e.
    destruct redis_url as [url|]; unfold_client; follow_run; tidy_events;
      intros Hin Hraised;
      repeat match goal with
      | H : _ \/ _ |- _ => destruct H
      | H : False |- _ => destruct H
      end; subst; simpl in *; try discriminate;
      inversion Hraised; subst; try congruence;
      repeat match goal with
      | H : is_Exception ?x = _ |- _ => rewrite H
      end; reflexivity.
  - intros client.
    unfold effective_address.
    destruct redis_url as [url|];
      [| destruct (environ s !! REDIS_URL) eqn:Henv];
      unfold_client; simpl; rewrite ?Henv; simpl;
      follow_run; tidy_events; intros Hret; try discriminate;
      inversion Hret; subst; (split; [eexists _, _; split; reflexivity |]);
      repeat constructor.
  - intros op s' e. apply only_BaseException_escapes.
Qed.

(** X14. What [get_job_status] does guarantee: a status returned in [Ok] is the
    string the backend reported for the fetched job, passed on as it is, the
    client neither mapping nor filtering it.  It is one of the five names of
    the specification whenever the backend reports no other. *)
Lemma status_is_passed_through (job_id : string) (s : State) (status : string) :
  fst (get_job_status B job_id s) = Returned (Ok status) ->
  (exists c job w1 w2,
      _redis_connection (self s) = Some c
      /\ Job_fetch B job_id c (world s) = (Returned job, w1)
      /\ Job_get_status B job w1 = (Returned status, w2))
  /\ ((forall job w reported w',
          Job_get_status B job w = (Returned reported, w') ->
          in_vocabulary reported = true) ->
      in_vocabulary status = true).
Proof.
  intros Hok.
  assert (exists c job w1 w2,
             _redis_connection (self s) = Some c
             /\ Job_fetch B job_id c (world s) = (Returned job, w1)
             /\ Job_get_status B job w1 = (Returned status, w2))
    as (c & job & w1 & w2 & Hconn & Hfetch & Hstatus).
  { revert Hok. unfold_client. follow_run; intros Hok; try discriminate.
    inversion Hok; subst. eauto 8. }
  split; [eauto 8 | intros Hvocab; eapply Hvocab; exact Hstatus].
Qed.


(** C8. No operation touches the client: after it the attributes
    [_redis_connection] and [_queue] (and the environment) are what they
    were, the round trips it made were added to those made before, and none
    of them opens a connection or binds a queue.  (Closing a connection is
    not among the calls the source makes at all, see [Call].) *)
Theorem operations_leave_the_client_alone (op : Operation) (s : State) :
  self (snd (invoke B op s)) = self s
  /\ environ (snd (invoke B op s)) = environ s
  /\ calls (snd (invoke B op s)) =
       (calls s ++ events_since s (snd (invoke B op s)))%list
  /\ forallb (fun ev => negb (opens_connection (ev_call ev)))
       (events_since s (snd (invoke B op s))) = true.
Proof.
  destruct op; unfold_client; follow_run; tidy_events;
    rewrite ?app_nil_r; repeat split.
Qed.

(** C9. A finished job whose result reads as [None] gives [Ok(None)], and
    gives it in every such situation: two runs in which the result reads as
    [None], for whatever reason, return the same thing to their callers. *)
Theorem finished_job_with_None_result
    (job_id job_id' : string) (s s' : State) (c c' : Conn) (job job' : JobT)
    (w1 w2 w3 w1' w2' w3' : W) :
  _redis_connection (self s) = Some c ->
  Job_fetch B job_id c (world s) = (Returned job, w1) ->
  Job_is_finished B job w1 = (Returned true, w2) ->
  Job_result B job w2 = (Returned PyNone, w3) ->
  _redis_connection (self s') = Some c' ->
  Job_fetch B job_id' c' (world s') = (Returned job', w1') ->
  Job_is_finished B job' w1' = (Returned true, w2') ->
  Job_result B job' w2' = (Returned PyNone, w3') ->
  fst (get_job_result B job_id s) = Returned (Ok PyNone)
  /\ fst (get_job_result B job_id' s') = fst (get_job_result B job_id s).
Proof.
  intros Hc Hf Hfin Hres Hc' Hf' Hfin' Hres'.
  unfold_client.
  rewrite Hc, Hc'; simpl. rewrite Hf, Hf'; simpl.
  rewrite Hfin, Hfin'; simpl. rewrite Hres, Hres'; simpl.
  split; reflexivity.
Qed.

(** C10. The prefix of an [Err] message tells where it comes from.  It
    starts with "Job is not finished yet" exactly when nothing cut the body
    short, and then the operation is [get_job_result], the job was fetched,
    [is_finished] read false and the status in the message was read.  It
    starts with the operation's own "Failed to ..." prefix exactly when an
    exception cut the body short (a library call of the run raised it, or an
    attribute was missing), and then the message is that prefix followed by
    the text of that exception. *)
Theorem message_prefix_tells_the_origin (op : Operation) (s : State) (m : string) :
  fst (invoke B op s) = Returned (Err m) ->
  (String.prefix not_finished_prefix m = true <-> failure_of_run B op s = None)
  /\ (String.prefix (failure_prefix op) m = true
      <-> exists e, failure_of_run B op s = Some e)
  /\ match failure_of_run B op s with
     | Some e => is_Exception e = true /\ m = failure_prefix op +:+ str e
     | None =>
         exists job_id c job w1 w2 status w3,
           op = op_get_job_result job_id
           /\ _redis_connection (self s) = Some c
           /\ Job_fetch B job_id c (world s) = (Returned job, w1)
           /\ Job_is_finished B job w1 = (Returned false, w2)
           /\ Job_get_status B job w2 = (Returned status, w3)
           /\ m = "Job is not finished yet (status: " +:+ status +:+ ")"
     end.
Proof.
  intros Hm.
  assert (match failure_of_run B op s with
          | Some e =>
              (is_Exception e = true /\ m = failure_prefix op +:+ str e)
              /\ String.prefix (failure_prefix op) m = true
              /\ String.prefix not_finished_prefix m = false
          | None =>
              (exists job_id c job w1 w2 status w3,
                  op = op_get_job_result job_id
                  /\ _redis_connection (self s) = Some c
                  /\ Job_fetch B job_id c (world s) = (Returned job, w1)
                  /\ Job_is_finished B job w1 = (Returned false, w2)
                  /\ Job_get_status B job w2 = (Returned status, w3)
                  /\ m = "Job is not finished yet (status: " +:+ status +:+ ")")
              /\ String.prefix (failure_prefix op) m = false
              /\ String.prefix not_finished_prefix m = true
          end) as Hcore.
  { revert Hm. unfold failure_of_run, missing_attribute.
    destruct op; unfold_client; follow_run; tidy_events; intros Hm;
      try discriminate; inversion Hm; subst; clear Hm;
      try (split; [split; [assumption || reflexivity | reflexivity] |
                   split; [apply prefix_append | reflexivity]]).
    split; [| split; reflexivity].
    eexists _, _, _, _, _, _, _. repeat split; eassumption. }
  destruct (failure_of_run B op s) as [e|].
  - destruct Hcore as (Hmsg & Hown & Hnot). split; [| split].
    + rewrite Hnot. split; discriminate.
    + split; [eauto | intros _; exact Hown].
    + exact Hmsg.
  - destruct Hcore as (Hrun & Hown & Hnot). split; [| split].
    + split; [reflexivity | intros _; exact Hnot].
    + rewrite Hown. split; [discriminate | intros (e & He); discriminate].
    + exact Hrun.
Qed.

End Contract.

(** * The contract at work on the reference backend *)

Section OnTheReferenceBackend.

Import InMemory.

Local Abbreviation Ev := (Event Conn QueueT JobT).

(** An unknown job ID: the fetch fails, [get_job_status] returns [Err]. *)
Lemma backend_failures_become_Err_witness :
  fst (invoke backend (op_get_job_status "no-such-id") (state_on server)) =
    Returned (Err "Failed to get job status: No such job: no-such-id")
  /\ forall escaped,
      fst (invoke backend (op_get_job_status "no-such-id") (state_on server))
      <> Raised escaped.
Proof.
  apply (backend_failures_become_Err backend
           (op_get_job_status "no-such-id") (state_on server)
           ({| ev_call := call_fetch "no-such-id" default_redis_url;
               ev_raised := Some (NoSuchJobError "no-such-id") |} : Ev)
           (NoSuchJobError "no-such-id")).
  - vm_compute. left. reflexivity.
  - reflexivity.
  - reflexivity.
Defined.

(** A started job: no result yet, and the message says [started]. *)
Lemma unfinished_job_gives_Err_witness :
  (forall value,
      fst (get_job_result backend "s1" (state_on server)) <> Returned (Ok value))
  /\ fst (get_job_result backend "s1" (state_on server)) =
       Returned (Err "Job is not finished yet (status: started)").
Proof.
  destruct (unfinished_job_gives_Err backend "s1" (state_on server)
              default_redis_url
              {| id := "s1"; fetched_meta := [("progress", PyInt 40)] |}
              server server)
    as [never_ok carries_status].
  - reflexivity.
  - vm_compute. reflexivity.
  - vm_compute. reflexivity.
  - split; [exact never_ok |].
    apply (carries_status "started" server). vm_compute. reflexivity.
Defined.

(** An address without a scheme: [redis.from_url] refuses it, construction
    raises. *)
Lemma construction_fails_by_raising_witness :
  fst (construct backend (Some "localhost:6379") (fresh_on ∅ server)) =
    Raised (RuntimeError
              ("Failed to connect to Redis: "
               +:+ "Redis URL must specify one of the following schemes (redis://, rediss://, unix://)")
              (ValueError
                 "Redis URL must specify one of the following schemes (redis://, rediss://, unix://)")).
Proof.
  apply (proj1 (construction_fails_by_raising backend (Some "localhost:6379")
                  (fresh_on ∅ server))
           ({| ev_call := call_from_url "localhost:6379";
               ev_raised :=
                 Some (ValueError
                         "Redis URL must specify one of the following schemes (redis://, rediss://, unix://)") |}
            : Ev)
           (ValueError
              "Redis URL must specify one of the following schemes (redis://, rediss://, unix://)")).
  - vm_compute. left. reflexivity.
  - reflexivity.
Defined.

(** C4. The specification has construction raise when the backend cannot be
    reached, and the source words its [RuntimeError] "Failed to connect to
    Redis".  But neither [redis.from_url] nor [Queue] sends anything to the
    server, so with nothing listening at the address both calls return:
    construction raises nothing and hands out a client, and every operation
    called on that client comes back as [Err]. *)
Theorem unreachable_server_still_gives_a_client :
  let built := construct backend None (fresh_on ∅ server_down) in
  fst built = Returned client
  /\ events_since (fresh_on ∅ server_down) (snd built) =
       [ {| ev_call := call_from_url default_redis_url; ev_raised := None |};
         {| ev_call := call_Queue default_redis_url; ev_raised := None |} ]
  /\ forall op, exists m, fst (invoke backend op (snd built)) = Returned (Err m).
Proof.
  split; [vm_compute; reflexivity | split; [vm_compute; reflexivity |]].
  intros op.
  let built := eval vm_compute in
                 (snd (construct backend None (fresh_on ∅ server_down))) in
  change (snd (construct backend None (fresh_on ∅ server_down))) with built.
  destruct op as [function_path args job_timeout kwargs | | | |];
    try (eexists; reflexivity).
  unfold invoke, map_ok, enqueue_job, try_except, bind, ret, backend_call,
    get_queue; cbn [self _queue world Queue_enqueue backend].
  unfold enqueue, new_job_id, reaches; cbn [up andb].
  destruct (default default_job_timeout job_timeout =? 0);
    [eexists; reflexivity |].
  destruct (kwargs_get "job_id" kwargs) as [[| | | given | |]|];
    try (eexists; reflexivity).
  destruct (String.eqb given EmptyString); eexists; reflexivity.
Qed.

(** C5. The docstring of [get_job_status] and the specification name five
    possible statuses.  A job enqueued through the client with [depends_on]
    on a job still running is reported by the backend as [deferred], and
    [get_job_status] returns that in [Ok]: a sixth value. *)
Theorem deferred_status_is_returned :
  let enqueued :=
    enqueue_job backend "reports.build" [] None
      [("depends_on", PyStr "q1")] (state_on server) in
  fst enqueued = Returned (Ok "job-0")
  /\ fst (get_job_status backend "job-0" (snd enqueued)) =
       Returned (Ok "deferred")
  /\ in_vocabulary "deferred" = false.
Proof. vm_compute. repeat split. Qed.

(** The failed job [x1]: the status in [Ok] is the one the backend holds. *)
Lemma status_is_passed_through_witness :
  (exists c job w1 w2,
      _redis_connection (self (state_on server)) = Some c
      /\ Job_fetch backend "x1" c (world (state_on server)) = (Returned job, w1)
      /\ Job_get_status backend job w1 = (Returned "failed", w2))
  /\ ((forall job w reported w',
          Job_get_status backend job w = (Returned reported, w') ->
          in_vocabulary reported = true) ->
      in_vocabulary "failed" = true).
Proof.
  apply (status_is_passed_through backend "x1" (state_on server) "failed").
  vm_compute. reflexivity.
Defined.






(** An empty [job_id] is refused, and comes back as [Err]. *)
Example empty_job_id_is_refused :
  fst (enqueue_job backend "reports.build" [] None
         [("job_id", PyStr EmptyString)] (state_on server)) =
    Returned (Err "Failed to enqueue job: id must be a non-empty string").
Proof. vm_compute. reflexivity. Qed.

(** Job [f2] finished with [None] as its stored result, job [f3] finished
    with no stored result: the caller gets [Ok(None)] for both. *)
Lemma finished_job_with_None_result_witness :
  result <$> (jobs server !! "f2") = Some (Some PyNone)
  /\ result <$> (jobs server !! "f3") = Some None
  /\ fst (get_job_result backend "f2" (state_on server)) = Returned (Ok PyNone)
  /\ fst (get_job_result backend "f3" (state_on server)) =
       fst (get_job_result backend "f2" (state_on server)).
Proof.
  split; [vm_compute; reflexivity | split; [vm_compute; reflexivity |]].
  apply (finished_job_with_None_result backend "f2" "f3"
           (state_on server) (state_on server)
           default_redis_url default_redis_url
           {| id := "f2"; fetched_meta := [] |}
           {| id := "f3"; fetched_meta := [] |}
           server server server server server server);
    vm_compute; reflexivity.
Defined.

(** The two kinds of [Err] of [get_job_result]: for the queued job [q1]
    nothing cut the body short and the message starts with "Job is not
    finished yet"; for an unknown job the fetch raised and the message starts
    with "Failed to get job result: ". *)
Lemma message_prefix_tells_the_origin_witness :
  (String.prefix not_finished_prefix "Job is not finished yet (status: queued)"
     = true
   <-> failure_of_run backend (op_get_job_result "q1") (state_on server) = None)
  /\ (String.prefix (failure_prefix (op_get_job_result "zz"))
        "Failed to get job result: No such job: zz" = true
      <-> exists e,
            failure_of_run backend (op_get_job_result "zz") (state_on server)
            = Some e).
Proof.
  split.
  - apply (message_prefix_tells_the_origin backend (op_get_job_result "q1")
             (state_on server) "Job is not finished yet (status: queued)").
    vm_compute. reflexivity.
  - apply (message_prefix_tells_the_origin backend (op_get_job_result "zz")
             (state_on server) "Failed to get job result: No such job: zz").
    vm_compute. reflexivity.
Defined.

(** The three steps of the address fallback, each on a run of construction:
    the argument wins over the environment, the environment over the default. *)
Example address_fallback_runs :
  let env : gmap string string := {[ REDIS_URL := "redis://cache:6379/1" ]} in
  map ev_call (calls (snd (construct backend (Some "redis://given:6379/2")
                             (fresh_on env server)))) =
    [call_from_url "redis://given:6379/2"; call_Queue "redis://given:6379/2"]
  /\ map ev_call (calls (snd (construct backend None (fresh_on env server)))) =
       [call_from_url "redis://cache:6379/1"; call_Queue "redis://cache:6379/1"]
  /\ map ev_call (calls (snd (construct backend None (fresh_on ∅ server)))) =
       [call_from_url "redis://localhost:6379/0";
        call_Queue "redis://localhost:6379/0"].
Proof. vm_compute. repeat split. Qed.

(** Why C1 speaks of exceptions deriving from [Exception]: an interrupt
    arriving during the fetch is not caught by [except Exception]. *)
Example interrupt_is_not_caught :
  fst (get_job_status interrupted "q1" (state_on server)) = Raised KeyboardInterrupt.
Proof. reflexivity. Qed.

End OnTheReferenceBackend.

(** * Further properties of the client *)

Section Further.

Context {W Conn QueueT JobT : Type}.
Variable B : Backend W Conn QueueT JobT.

Local Abbreviation State := (State W Conn QueueT JobT).
Local Abbreviation Event := (Event Conn QueueT JobT).

(** X1. [get_job_result] returns [Ok(value)] exactly when the job was
    fetched, [is_finished] read true and [job.result] read [value]: the value
    handed to the caller is the one read from the backend, whatever it is. *)
Theorem result_is_what_the_backend_holds
    (job_id : string) (s : State) (value : PyValue) :
  fst (get_job_result B job_id s) = Returned (Ok value)
  <-> exists c job w1 w2 w3,
        _redis_connection (self s) = Some c
        /\ Job_fetch B job_id c (world s) = (Returned job, w1)
        /\ Job_is_finished B job w1 = (Returned true, w2)
        /\ Job_result B job w2 = (Returned value, w3).
Proof.
  split.
  - unfold_client. follow_run; intros H; try discriminate.
    inversion H; subst. eauto 10.
  - intros (c & job & w1 & w2 & w3 & Hc & Hf & Hfin & Hres).
    unfold_client. rewrite Hc; simpl. rewrite Hf; simpl.
    rewrite Hfin; simpl. rewrite Hres; reflexivity.
Qed.

(** X2. When [cancel_job] returns [Ok], the job was fetched and then one
    cancellation of that very job went to the backend and was accepted; these
    two calls are all the traffic, and the backend is left as the
    cancellation left it. *)
Theorem cancel_Ok_means_accepted (job_id : string) (s : State) :
  fst (cancel_job B job_id s) = Returned (Ok tt) ->
  exists c job w1,
    _redis_connection (self s) = Some c
    /\ Job_fetch B job_id c (world s) = (Returned job, w1)
    /\ Job_cancel B job w1 = (Returned tt, world (snd (cancel_job B job_id s)))
    /\ map ev_call (events_since s (snd (cancel_job B job_id s))) =
         [call_fetch job_id c; call_cancel job].
Proof.
  unfold_client. follow_run; tidy_events; intros H; try discriminate.
  match goal with u : unit |- _ => destruct u end.
  eexists _, _, _. repeat split; eauto.
Qed.

(** X3. An [Ok] is never made up: when an operation returns [Ok], it made at
    least one call on the backend and every call it made succeeded. *)
Theorem Ok_means_every_call_succeeded
    (op : Operation) (s : State) (value : PyValue) :
  fst (invoke B op s) = Returned (Ok value) ->
  events_since s (snd (invoke B op s)) <> []
  /\ Forall (fun ev => ev_raised ev = None)
       (events_since s (snd (invoke B op s))).
Proof.
  destruct op; unfold_client; follow_run; tidy_events; intros H;
    try discriminate; (split; [discriminate | repeat constructor]).
Qed.

(** X4. An operation stops at the first call that fails: of the calls it
    made, all but the last succeeded. *)
Theorem operation_stops_at_first_failure (op : Operation) (s : State) :
  Forall (fun ev => ev_raised ev = None)
    (removelast (events_since s (snd (invoke B op s)))).
Proof.
  destruct op; unfold_client; follow_run; tidy_events; repeat constructor.
Qed.

(** X5. No operation retries or polls: one run makes at most the calls of
    its body, one for [enqueue_job] and [get_job_meta], two for
    [get_job_status] and [cancel_job], three for [get_job_result]. *)
Theorem operations_do_not_retry (op : Operation) (s : State) :
  (length (events_since s (snd (invoke B op s))) <= max_round_trips op)%nat.
Proof.
  destruct op; unfold_client; follow_run; tidy_events; lia.
Qed.

(** X6. The environment is read at construction only: with another
    environment an operation returns the same thing, makes the same calls
    and leaves the backend the same. *)
Theorem operations_ignore_the_environment
    (op : Operation) (s : State) (env : gmap string string) :
  fst (invoke B op (with_environ env s)) = fst (invoke B op s)
  /\ world (snd (invoke B op (with_environ env s))) = world (snd (invoke B op s))
  /\ events_since (with_environ env s) (snd (invoke B op (with_environ env s))) =
       events_since s (snd (invoke B op s)).
Proof.
  unfold with_environ.
  destruct op; unfold_client; follow_run; tidy_events; repeat split.
Qed.

(** X7. With an address given, construction does not depend on the
    environment either: [REDIS_URL] is looked up only when the argument is
    [None]. *)
Theorem given_address_ignores_the_environment
    (url : string) (s : State) (env : gmap string string) :
  fst (construct B (Some url) (with_environ env s)) =
    fst (construct B (Some url) s)
  /\ world (snd (construct B (Some url) (with_environ env s))) =
       world (snd (construct B (Some url) s))
  /\ events_since (with_environ env s)
       (snd (construct B (Some url) (with_environ env s))) =
       events_since s (snd (construct B (Some url) s)).
Proof.
  unfold with_environ.
  unfold_client; follow_run; tidy_events; repeat split.
Qed.

(** On a client that holds a connection and a queue, every operation starts
    with a fetch over the connection or a submission to the queue. *)
Lemma operation_starts_with_first_call
    (op : Operation) (s : State) (c : Conn) (q : QueueT) :
  _redis_connection (self s) = Some c ->
  _queue (self s) = Some q ->
  head (map ev_call (events_since s (snd (invoke B op s)))) =
    Some (first_call c q op).
Proof.
  intros Hc Hq.
  destruct op; unfold first_call; unfold_client; rewrite ?Hc, ?Hq;
    follow_run; tidy_events; reflexivity.
Qed.

(** X8. A constructed client works on what construction bound: the
    connection that [redis.from_url] returned for the resolved address and
    the queue that [Queue] returned for that connection.  Every operation
    called on it starts with a fetch over that connection, or, for
    [enqueue_job], with a submission to that queue. *)
Theorem client_uses_what_construction_bound
    (redis_url : option string) (s s1 : State) (client : RQClient Conn QueueT) :
  construct B redis_url s = (Returned client, s1) ->
  exists c q w1,
    redis_from_url B (effective_address redis_url (environ s !! REDIS_URL))
      (world s) = (Returned c, w1)
    /\ Queue_new B c w1 = (Returned q, world s1)
    /\ self s1 = client
    /\ forall op,
         head (map ev_call (events_since s1 (snd (invoke B op s1)))) =
           Some (first_call c q op).
Proof.
  unfold effective_address.
  destruct redis_url as [url|];
    [| destruct (environ s !! REDIS_URL) eqn:Henv];
    unfold construct, __init__, getenv, try_except, bind, ret, raise,
      backend_call, get_redis_connection, set_redis_connection, set_queue,
      REDIS_URL, default_redis_url in *;
    simpl; rewrite ?Henv; simpl;
    follow_run; intros H; try discriminate; inversion H; subst; clear H;
    (eexists _, _, _; simpl; split; [reflexivity | split; [eassumption | split;
       [reflexivity |]]]);
    intros op; apply operation_starts_with_first_call; reflexivity.
Qed.

(** X9. Called on an object whose attributes were never assigned, an
    operation calls nothing on the backend and changes nothing; the
    [AttributeError] is caught like any other and comes back as [Err] under
    the operation's prefix. *)
Theorem missing_attribute_gives_Err (op : Operation) (s : State) :
  self s = blank ->
  exists attr,
    invoke B op s =
      (Returned (Err (failure_prefix op +:+ str (AttributeError attr))), s).
Proof.
  intros Hblank.
  destruct op; unfold_client; rewrite Hblank; simpl;
    [exists "_queue" | exists "_redis_connection" ..]; reflexivity.
Qed.

(** X10. [get_job_result] reads the result of a job only after [is_finished]
    read true for it, and in such a run it does not read the status for a
    message. *)
Theorem result_is_read_only_when_finished
    (job_id : string) (s : State) (ev : Event) (job : JobT) :
  In ev (events_since s (snd (get_job_result B job_id s))) ->
  ev_call ev = call_result job ->
  (exists c w1 w2,
      _redis_connection (self s) = Some c
      /\ Job_fetch B job_id c (world s) = (Returned job, w1)
      /\ Job_is_finished B job w1 = (Returned true, w2))
  /\ forall ev' job',
       In ev' (events_since s (snd (get_job_result B job_id s))) ->
       ev_call ev' <> call_get_status job'.
Proof.
  unfold_client. follow_run; tidy_events; intros Hin Hcall;
    repeat match goal with
    | H : _ \/ _ |- _ => destruct H
    | H : False |- _ => destruct H
    end; subst; simpl in *; try discriminate;
    inversion Hcall; subst;
    (split; [eauto 8 |]);
    intros ev' job' Hin';
    repeat match goal with
    | H : _ \/ _ |- _ => destruct H
    | H : False |- _ => destruct H
    end; subst; simpl; discriminate.
Qed.

(** X11. Construction binds no queue on a connection it did not get: when
    [redis.from_url] fails, that call is the only one made, and the backend
    is left as the failed call left it. *)
Theorem failed_connection_binds_no_queue
    (redis_url : option string) (s : State) (e : PyExc) (w : W) :
  redis_from_url B (effective_address redis_url (environ s !! REDIS_URL))
    (world s) = (Raised e, w) ->
  map ev_call (events_since s (snd (construct B redis_url s))) =
    [call_from_url (effective_address redis_url (environ s !! REDIS_URL))]
  /\ world (snd (construct B redis_url s)) = w.
Proof.
  unfold effective_address.
  destruct redis_url as [url|];
    [| destruct (environ s !! REDIS_URL) eqn:Henv];
    unfold_client; simpl; rewrite ?Henv; simpl;
    intros Hfail; rewrite Hfail; simpl;
    follow_run; tidy_events; split; reflexivity.
Qed.

(** X12. [enqueue_job] forwards what it is given: the function path, the
    positional and keyword arguments and a timeout given by the caller reach
    the backend unchanged in one call, nothing is validated on the way, and
    the outcome is read off that call alone. *)
Theorem enqueue_forwards_its_arguments
    (function_path : string) (args : list PyValue) (timeout : Z)
    (kwargs : PyDict) (s : State) (q : QueueT) :
  _queue (self s) = Some q ->
  map ev_call
      (events_since s
         (snd (enqueue_job B function_path args (Some timeout) kwargs s))) =
    [call_enqueue q function_path args timeout kwargs]
  /\ fst (enqueue_job B function_path args (Some timeout) kwargs s) =
       match fst (Queue_enqueue B q function_path args timeout kwargs (world s)) with
       | Returned job => Returned (Ok (Job_id B job))
       | Raised error =>
           if is_Exception error
           then Returned (Err ("Failed to enqueue job: " +:+ str error))
           else Raised error
       end
  /\ world (snd (enqueue_job B function_path args (Some timeout) kwargs s)) =
       snd (Queue_enqueue B q function_path args timeout kwargs (world s)).
Proof.
  intros Hq. unfold_client. rewrite Hq.
  follow_run; tidy_events; repeat split.
Qed.

(** X13. [get_job_meta] costs one call, the fetch, and returns the metadata
    of the job object as fetched: it reads neither status nor result and
    does not go back to the backend for the metadata. *)
Theorem meta_is_read_off_the_fetched_job
    (job_id : string) (s : State) (c : Conn) :
  _redis_connection (self s) = Some c ->
  map ev_call (events_since s (snd (get_job_meta B job_id s))) =
    [call_fetch job_id c]
  /\ fst (get_job_meta B job_id s) =
       match fst (Job_fetch B job_id c (world s)) with
       | Returned job => Returned (Ok (Job_meta B job))
       | Raised error =>
           if is_Exception error
           then Returned (Err ("Failed to get job metadata: " +:+ str error))
           else Raised error
       end
  /\ world (snd (get_job_meta B job_id s)) =
       snd (Job_fetch B job_id c (world s)).
Proof.
  intros Hc. unfold_client. rewrite Hc.
  follow_run; tidy_events; repeat split.
Qed.

End Further.

(** * The further properties at work on the reference backend *)

Section FurtherOnTheReferenceBackend.

Import InMemory.

Local Abbreviation Ev := (Event Conn QueueT JobT).

(** Job [f1] finished with 42: the caller gets 42. *)
Lemma result_is_what_the_backend_holds_witness :
  fst (get_job_result backend "f1" (state_on server)) = Returned (Ok (PyInt 42)).
Proof.
  apply (proj2 (result_is_what_the_backend_holds backend "f1" (state_on server)
                  (PyInt 42))).
  exists default_redis_url, {| id := "f1"; fetched_meta := [] |},
    server, server, server.
  repeat split; vm_compute; reflexivity.
Defined.

(** Cancelling the queued job [q1]. *)
Lemma cancel_Ok_means_accepted_witness :
  exists c job w1,
    _redis_connection (self (state_on server)) = Some c
    /\ Job_fetch backend "q1" c (world (state_on server)) = (Returned job, w1)
    /\ Job_cancel backend job w1 =
         (Returned tt, world (snd (cancel_job backend "q1" (state_on server))))
    /\ map ev_call
         (events_since (state_on server)
            (snd (cancel_job backend "q1" (state_on server)))) =
         [call_fetch "q1" c; call_cancel job].
Proof.
  apply (cancel_Ok_means_accepted backend "q1" (state_on server)).
  vm_compute. reflexivity.
Defined.

(** The metadata of the started job [s1] comes back in [Ok] after one call. *)
Lemma Ok_means_every_call_succeeded_witness :
  events_since (state_on server)
    (snd (invoke backend (op_get_job_meta "s1") (state_on server))) <> []
  /\ Forall (fun ev : Ev => ev_raised ev = None)
       (events_since (state_on server)
          (snd (invoke backend (op_get_job_meta "s1") (state_on server)))).
Proof.
  apply (Ok_means_every_call_succeeded backend (op_get_job_meta "s1")
           (state_on server) (PyDictV [("progress", PyInt 40)])).
  vm_compute. reflexivity.
Defined.

(** Construction on the default address, then any operation. *)
Lemma client_uses_what_construction_bound_witness :
  exists c q w1,
    redis_from_url backend
      (effective_address None (environ (fresh_on ∅ server) !! REDIS_URL))
      (world (fresh_on ∅ server)) = (Returned c, w1)
    /\ Queue_new backend c w1 =
         (Returned q, world (snd (construct backend None (fresh_on ∅ server))))
    /\ self (snd (construct backend None (fresh_on ∅ server))) = client
    /\ forall op,
         head (map ev_call
                 (events_since (snd (construct backend None (fresh_on ∅ server)))
                    (snd (invoke backend op
                            (snd (construct backend None (fresh_on ∅ server)))))))
         = Some (first_call c q op).
Proof.
  apply (client_uses_what_construction_bound backend None (fresh_on ∅ server)
           (snd (construct backend None (fresh_on ∅ server))) client).
  vm_compute. reflexivity.
Defined.

(** An object that was never initialised. *)
Lemma missing_attribute_gives_Err_witness :
  exists attr,
    invoke backend (op_cancel_job "q1") (fresh_on ∅ server) =
      (Returned (Err (failure_prefix (op_cancel_job "q1")
                      +:+ str (AttributeError attr))),
       fresh_on ∅ server).
Proof.
  apply (missing_attribute_gives_Err backend (op_cancel_job "q1")
           (fresh_on ∅ server)).
  reflexivity.
Defined.

(** The result of [f1] is read, so [f1] was seen finished. *)
Lemma result_is_read_only_when_finished_witness :
  (exists c w1 w2,
      _redis_connection (self (state_on server)) = Some c
      /\ Job_fetch backend "f1" c (world (state_on server)) =
           (Returned {| id := "f1"; fetched_meta := [] |}, w1)
      /\ Job_is_finished backend {| id := "f1"; fetched_meta := [] |} w1 =
           (Returned true, w2))
  /\ forall ev' job',
       In ev' (events_since (state_on server)
                 (snd (get_job_result backend "f1" (state_on server)))) ->
       ev_call ev' <> call_get_status job'.
Proof.
  apply (result_is_read_only_when_finished backend "f1" (state_on server)
           ({| ev_call := call_result {| id := "f1"; fetched_meta := [] |};
               ev_raised := None |} : Ev)
           {| id := "f1"; fetched_meta := [] |}).
  - vm_compute. right. right. left. reflexivity.
  - reflexivity.
Defined.

(** An address without a scheme: one call, no queue. *)
Lemma failed_connection_binds_no_queue_witness :
  map ev_call
      (events_since (fresh_on ∅ server)
         (snd (construct backend (Some "localhost:6379") (fresh_on ∅ server)))) =
    [call_from_url
       (effective_address (Some "localhost:6379")
          (environ (fresh_on ∅ server) !! REDIS_URL))]
  /\ world (snd (construct backend (Some "localhost:6379") (fresh_on ∅ server)))
     = server.
Proof.
  apply (failed_connection_binds_no_queue backend (Some "localhost:6379")
           (fresh_on ∅ server)
           (ValueError
              "Redis URL must specify one of the following schemes (redis://, rediss://, unix://)")
           server).
  vm_compute. reflexivity.
Defined.

(** A timeout of one minute, as given. *)
Lemma enqueue_forwards_its_arguments_witness :
  map ev_call
      (events_since (state_on server)
         (snd (enqueue_job backend "reports.build" [PyInt 7] (Some 60)
                 [("quick", PyBool true)] (state_on server)))) =
    [call_enqueue default_redis_url "reports.build" [PyInt 7] 60
       [("quick", PyBool true)]].
Proof.
  apply (enqueue_forwards_its_arguments backend "reports.build" [PyInt 7] 60
           [("quick", PyBool true)] (state_on server) default_redis_url).
  reflexivity.
Defined.

(** The metadata of [s1]. *)
Lemma meta_is_read_off_the_fetched_job_witness :
  map ev_call
      (events_since (state_on server)
         (snd (get_job_meta backend "s1" (state_on server)))) =
    [call_fetch "s1" default_redis_url].
Proof.
  apply (meta_is_read_off_the_fetched_job backend "s1" (state_on server)
           default_redis_url).
  reflexivity.
Defined.

End FurtherOnTheReferenceBackend.
